(** * JB::EMR::StepConcurrencyLevel: the resource handlers of handlers.py

    A shallow embedding of [src/jb_emr_stepconcurrencylevel/handlers.py]:
    the three readers ([get_cluster_info], [get_uid],
    [get_concurrency_level]) and the four lifecycle handlers
    ([create_handler], [update_handler], [delete_handler], [read_handler]),
    written against an abstract EMR client, followed by the properties of
    the lifecycle contract. *)

From Stdlib Require Import ZArith Lia Ascii.
From stdpp Require Import base strings list gmap pretty.

Local Open Scope Z_scope.

(** ** Values and the resource model *)

(** The values a declared [StepConcurrencyLevel] can hold when the handler
    receives it: an integer, a string (CloudFormation hands property values
    over as text) or [None]. *)
Inductive PyVal : Type :=
| VInt (n : Z)
| VStr (s : string)
| VNone.

(** [ResourceModel] of models.py, with the three properties the handlers
    touch.  [UID] is [None] until Create writes it. *)
Record ResourceModel : Type := mkModel {
  ClusterId : string;
  StepConcurrencyLevel : PyVal;
  UID : option string
}.

Definition set_UID (u : option string) (m : ResourceModel) : ResourceModel :=
  mkModel (ClusterId m) (StepConcurrencyLevel m) u.

Definition set_StepConcurrencyLevel (v : PyVal) (m : ResourceModel)
  : ResourceModel :=
  mkModel (ClusterId m) v (UID m).

(** [ResourceHandlerRequest]: the declared model and, for Update, the
    previous one. *)
Record ResourceHandlerRequest : Type := mkRequest {
  desiredResourceState : ResourceModel;
  previousResourceState : ResourceModel
}.

Inductive OperationStatus : Type := IN_PROGRESS | SUCCESS | FAILED.

(** The handlers build their [ProgressEvent] around the request's model
    object itself, and go on assigning to that object afterwards: the event
    holds a reference, not a copy.  There is one such object per
    invocation. *)
Inductive ModelRef : Type := desired_ref.

Record ProgressEvent : Type := mkEvent {
  status : OperationStatus;
  resourceModel : option ModelRef
}.

Inductive Action : Type := CREATE | UPDATE | DELETE | READ.

Definition TYPE_NAME : string := "JB::EMR::StepConcurrencyLevel".

(** ** Exceptions *)

Inductive HandlerErrorCode : Type :=
| CodeAlreadyExists | CodeInvalidRequest | CodeNotFound | CodeInternalFailure.

(** What a handler can raise: the four [exceptions.*] classes it raises
    itself, the two errors of the builtin [int], and whatever the EMR client
    raised, kept as its text [str(e)]. *)
Inductive Exn : Type :=
| AlreadyExists (type_name identifier : string)
| InvalidRequest (msg : string)
| NotFound (type_name identifier : string)
| InternalFailure (msg : string)
| ValueError (literal : string)
| TypeError
| ClientError (text : string).

Definition handler_error_code (e : Exn) : option HandlerErrorCode :=
  match e with
  | AlreadyExists _ _ => Some CodeAlreadyExists
  | InvalidRequest _ => Some CodeInvalidRequest
  | NotFound _ _ => Some CodeNotFound
  | InternalFailure _ => Some CodeInternalFailure
  | ValueError _ | TypeError | ClientError _ => None
  end.

(** The kinds raised by validation and by reconciliation. *)
Definition rejection (e : Exn) : bool :=
  match e with
  | AlreadyExists _ _ | InvalidRequest _ | NotFound _ _ => true
  | _ => false
  end.

(** ** The builtin [int] *)

(** [int] on the values of [PyVal].  Text is read as ASCII: optional white
    space around an optional sign and decimal digits, with single
    underscores allowed between digits. *)
Module PyInt.

(** White space that [int] strips from both ends of a string. *)
Definition is_space (c : ascii) : bool :=
  let n := nat_of_ascii c in
  ((9 <=? n)%nat && (n <=? 13)%nat) || ((28 <=? n)%nat && (n <=? 32)%nat).

Definition digit_of (c : ascii) : option Z :=
  let n := nat_of_ascii c in
  if ((48 <=? n)%nat && (n <=? 57)%nat) then Some (Z.of_nat n - 48)
  else None.

Fixpoint lstrip (s : string) : string :=
  match s with
  | String c r => if is_space c then lstrip r else s
  | EmptyString => s
  end.

Fixpoint rstrip (s : string) : string :=
  match s with
  | String c r =>
      match rstrip r with
      | EmptyString => if is_space c then EmptyString
                       else String c EmptyString
      | r' => String c r'
      end
  | EmptyString => s
  end.

(** Decimal digits, where one underscore may stand between two digits.
    [need] says that the next character has to be a digit. *)
Fixpoint digits (need : bool) (acc : Z) (s : string) : option Z :=
  match s with
  | EmptyString => if need then None else Some acc
  | String c r =>
      match digit_of c with
      | Some d => digits false (10 * acc + d) r
      | None =>
          if Ascii.eqb c "_" && negb need then digits true acc r else None
      end
  end.

Definition of_string (s : string) : option Z :=
  match rstrip (lstrip s) with
  | String "+" r => digits true 0 r
  | String "-" r => Z.opp <$> digits true 0 r
  | t => digits true 0 t
  end.

(** [int(v)]: the integer, or the exception raised. *)
Definition int (v : PyVal) : Exn + Z :=
  match v with
  | VInt n => inr n
  | VStr s => match of_string s with
              | Some n => inr n
              | None => inl (ValueError s)
              end
  | VNone => inl TypeError
  end.

End PyInt.

(** ** The EMR client *)

Record Tag : Type := mkTag { Key : string; Value : string }.

(** The part of a [describe_cluster] response the handlers read,
    [response["Cluster"]]. *)
Module Cluster.
Record t : Type := mk {
  Tags : list Tag;
  StepConcurrencyLevel : Z
}.
End Cluster.

(** The four calls of the boto3 EMR client that the handlers make, on the
    client that [session.client('emr')] hands out.  Each one takes the
    remote world to a new one and either returns or raises; a raised
    exception is kept as its text [str(e)], and a response has the two
    entries the handlers index.  Nothing else is assumed about the calls:
    [describe_cluster] may fail on any call, and a call that fails may
    still have changed the world. *)
Record EmrClient (W : Type) : Type := mkClient {
  describe_cluster : string → W → W * (string + Cluster.t);
  modify_cluster : string → Z → W → W * (string + ());
  add_tags : string → list Tag → W → W * (string + ());
  remove_tags : string → list string → W → W * (string + ())
}.
Arguments describe_cluster {W}.
Arguments modify_cluster {W}.
Arguments add_tags {W}.
Arguments remove_tags {W}.

(** The calls issued to the client. *)
Inductive Call : Type :=
| DescribeCluster (cluster_id : string)
| ModifyCluster (cluster_id : string) (level : Z)
| AddTags (resource_id : string) (tags : list Tag)
| RemoveTags (resource_id : string) (tag_keys : list string).

Definition mutating (c : Call) : bool :=
  match c with
  | DescribeCluster _ => false
  | ModifyCluster _ _ | AddTags _ _ | RemoveTags _ _ => true
  end.

(** An entry of the call log kept beside the world, to state which calls an
    invocation made and in which order: the call, and the text of the
    exception when it raised. *)
Record Issued : Type := mkIssued { call : Call; raised : option string }.

Definition outcome_text {A} (r : string + A) : option string :=
  match r with inl text => Some text | inr _ => None end.

(** ** Handler state and the effect monad *)

Section Handlers.

Context {W : Type}.

(** What an invocation reads and writes: the remote world behind the
    session, the log of calls, and the request, whose declared model the
    handlers assign to. *)
Record State : Type := mkState {
  remote : W;
  calls : list Issued;
  request : ResourceHandlerRequest
}.

(** A computation that raises exceptions of type [E]. The state reached is
    kept when it raises, as in Python. *)
Definition Eff (E A : Type) : Type := State → State * (E + A).

Definition ret {E A} (x : A) : Eff E A := λ st, (st, inr x).

Definition raise {E A} (e : E) : Eff E A := λ st, (st, inl e).

Definition bind {E A B} (m : Eff E A) (k : A → Eff E B) : Eff E B :=
  λ st, match m st with
        | (st', inr x) => k x st'
        | (st', inl e) => (st', inl e)
        end.

(** [try: body / except Exception as e: raise h(str(e))].  The bodies of
    the handlers' [try] blocks raise through the client calls only, so the
    exception caught is a client exception, held as its text. *)
Definition try_except {E E' A} (body : Eff E A) (h : E → E') : Eff E' A :=
  λ st, match body st with
        | (st', inr x) => (st', inr x)
        | (st', inl e) => (st', inl (h e))
        end.

(** A client exception that no [try] block catches. *)
Definition uncaught {A} (m : Eff string A) : Eff Exn A :=
  try_except m ClientError.

Definition of_result {E A} (r : E + A) : Eff E A :=
  match r with inl e => raise e | inr x => ret x end.

End Handlers.

Arguments State : clear implicits.

Declare Scope eff_scope.
Delimit Scope eff_scope with eff.
Notation "x <- m ;; k" := (bind m (λ x, k))
  (at level 100, m at next level, right associativity) : eff_scope.
Notation "m ;;; k" := (bind m (λ _, k))
  (at level 100, right associativity) : eff_scope.

Local Open Scope eff_scope.

(** ** The handlers *)

Section Lifecycle.

Context {W : Type} (client : EmrClient W).

(** One call to the client: the world moves on and the call is logged,
    whether it returns or raises. *)
Definition issue {A} (c : Call) (op : W → W * (string + A))
  : Eff (W:=W) string A :=
  λ st, let r := op (remote st) in
        (mkState r.1 (calls st ++ [mkIssued c (outcome_text r.2)]) (request st),
         r.2).

(** [model = request.desiredResourceState], read through the reference. *)
Definition get_model {E} : Eff (W:=W) E ResourceModel :=
  λ st, (st, inr (desiredResourceState (request st))).

Definition get_previous_model {E} : Eff (W:=W) E ResourceModel :=
  λ st, (st, inr (previousResourceState (request st))).

(** An assignment to an attribute of the declared model. *)
Definition assign {E} (f : ResourceModel → ResourceModel) : Eff (W:=W) E () :=
  λ st, (mkState (remote st) (calls st)
           (mkRequest (f (desiredResourceState (request st)))
                      (previousResourceState (request st))),
         inr ()).

Definition get_cluster_info (cluster_id : string) : Eff string Cluster.t :=
  issue (DescribeCluster cluster_id) (describe_cluster client cluster_id).

(** The loop of [get_uid]: the value of the first tag whose key is
    ["StepConcurrencyUID"], [None] when the loop runs out. *)
Fixpoint first_uid_tag (tags : list Tag) : option string :=
  match tags with
  | tag :: rest =>
      if String.eqb (Key tag) "StepConcurrencyUID" then Some (Value tag)
      else first_uid_tag rest
  | [] => None
  end.

Definition get_uid (cluster_id : string) : Eff string (option string) :=
  response <- get_cluster_info cluster_id ;;
  ret (first_uid_tag (Cluster.Tags response)).

Definition get_concurrency_level (cluster_id : string) : Eff string Z :=
  response <- get_cluster_info cluster_id ;;
  ret (Cluster.StepConcurrencyLevel response).

(** ["cluster:" + model.ClusterId], the expression Create assigns to
    [model.UID]. *)
Definition cluster_uid (cluster_id : string) : string :=
  "cluster:" +:+ cluster_id.

(** The text of the range error: the backslash at the end of the source line
    joins it to the next one, whose indentation stays in the string. *)
Definition range_message (level : Z) : string :=
  "Step Concurency Level must be between 1 and 256, "
  +:+ "                " +:+ pretty level +:+ " was given.".

Definition out_of_range (level : Z) : bool :=
  (level <? 1) || (level >? 256).

Definition create_handler : Eff Exn ProgressEvent :=
  let progress := mkEvent IN_PROGRESS (Some desired_ref) in
  model <- get_model ;;
  assign (set_UID (Some (cluster_uid (ClusterId model)))) ;;;
  model <- get_model ;;
  level <- of_result (PyInt.int (StepConcurrencyLevel model)) ;;
  assign (set_StepConcurrencyLevel (VInt level)) ;;;
  model <- get_model ;;
  uid <- uncaught (get_uid (ClusterId model)) ;;
  if decide (uid = UID model) then
    raise (AlreadyExists TYPE_NAME (ClusterId model))
  else if out_of_range level then
    raise (InvalidRequest (range_message level))
  else
    try_except
      (issue (ModifyCluster (ClusterId model) level)
             (modify_cluster client (ClusterId model) level) ;;;
       issue (AddTags (ClusterId model)
                      [mkTag "StepConcurrencyUID" (cluster_uid (ClusterId model))])
             (add_tags client (ClusterId model)
                      [mkTag "StepConcurrencyUID" (cluster_uid (ClusterId model))]) ;;;
       ret (mkEvent SUCCESS (resourceModel progress)))
      (λ e, InternalFailure ("Failed Create: " +:+ e)).

Definition update_handler : Eff Exn ProgressEvent :=
  let progress := mkEvent IN_PROGRESS (Some desired_ref) in
  model <- get_model ;;
  previous_model <- get_previous_model ;;
  level <- of_result (PyInt.int (StepConcurrencyLevel model)) ;;
  assign (set_StepConcurrencyLevel (VInt level)) ;;;
  model <- get_model ;;
  if decide (UID model ≠ UID previous_model) then
    raise (InvalidRequest "Cannot update the UID")
  else if out_of_range level then
    raise (InvalidRequest (range_message level))
  else
    uid <- uncaught (get_uid (ClusterId model)) ;;
    if decide (UID model ≠ uid) then
      raise (NotFound TYPE_NAME (ClusterId model))
    else
      try_except
        (issue (ModifyCluster (ClusterId model) level)
               (modify_cluster client (ClusterId model) level) ;;;
         ret (mkEvent SUCCESS (resourceModel progress)))
        (λ e, InternalFailure ("Failed Update: " +:+ e)).

Definition delete_handler : Eff Exn ProgressEvent :=
  let progress := mkEvent IN_PROGRESS (Some desired_ref) in
  model <- get_model ;;
  uid <- uncaught (get_uid (ClusterId model)) ;;
  if decide (uid ≠ UID model) then
    raise (NotFound TYPE_NAME (ClusterId model))
  else
    try_except
      (issue (ModifyCluster (ClusterId model) 1)
             (modify_cluster client (ClusterId model) 1) ;;;
       let progress := mkEvent (status progress) None in
       issue (RemoveTags (ClusterId model) ["StepConcurrencyUID"])
             (remove_tags client (ClusterId model) ["StepConcurrencyUID"]) ;;;
       ret (mkEvent SUCCESS (resourceModel progress)))
      (λ e, InternalFailure ("Failed Delete: " +:+ e)).

Definition read_handler : Eff Exn ProgressEvent :=
  model <- get_model ;;
  uid <- uncaught (get_uid (ClusterId model)) ;;
  if decide (UID model ≠ uid) then
    raise (NotFound TYPE_NAME (ClusterId model))
  else
    try_except
      (level <- get_concurrency_level (ClusterId model) ;;
       assign (set_StepConcurrencyLevel (VInt level)))
      (λ e, InternalFailure ("Failed Read: " +:+ e)) ;;;
    ret (mkEvent SUCCESS (Some desired_ref)).

(** The model an event carries, read through its reference in the state the
    handler left. *)
Definition resulting_model (st : State W) (ev : ProgressEvent)
  : option ResourceModel :=
  match resourceModel ev with
  | Some desired_ref => Some (desiredResourceState (request st))
  | None => None
  end.

(** The registration [@resource.handler(Action.X)] of the four handlers. *)
Definition handler (action : Action) : Eff Exn ProgressEvent :=
  match action with
  | CREATE => create_handler
  | UPDATE => update_handler
  | DELETE => delete_handler
  | READ => read_handler
  end.

End Lifecycle.

(** ** A scripted EMR service *)

(** A stand-in for the service, to run the handlers on concrete clusters:
    the clusters by id, and a script that says, call after call, whether the
    next call raises (and with which text) before it does anything. *)
Module Mock.

Record World : Type := mkWorld {
  clusters : gmap string Cluster.t;
  script : list (option string)
}.

Definition no_such_cluster : string := "Cluster id is not valid.".

Definition scripted {A} (run : gmap string Cluster.t
                               → gmap string Cluster.t * (string + A))
  (w : World) : World * (string + A) :=
  match script w with
  | Some text :: rest => (mkWorld (clusters w) rest, inl text)
  | _ => let '(cs, r) := run (clusters w) in (mkWorld cs (tail (script w)), r)
  end.

Definition on_cluster (cluster_id : string) (f : Cluster.t → Cluster.t)
  (cs : gmap string Cluster.t) : gmap string Cluster.t * (string + ()) :=
  match cs !! cluster_id with
  | Some c => (<[cluster_id := f c]> cs, inr ())
  | None => (cs, inl no_such_cluster)
  end.

Definition has_key (keys : list string) (tag : Tag) : bool :=
  existsb (String.eqb (Key tag)) keys.

Definition without_keys (keys : list string) (tags : list Tag) : list Tag :=
  List.filter (λ tag, negb (has_key keys tag)) tags.

Definition client : EmrClient World := {|
  describe_cluster cluster_id :=
    scripted (λ cs, match cs !! cluster_id with
                    | Some c => (cs, inr c)
                    | None => (cs, inl no_such_cluster)
                    end);
  modify_cluster cluster_id level :=
    scripted (on_cluster cluster_id (λ c, Cluster.mk (Cluster.Tags c) level));
  add_tags cluster_id tags :=
    scripted (on_cluster cluster_id
                (λ c, Cluster.mk (without_keys (Key <$> tags) (Cluster.Tags c)
                                    ++ tags)
                                 (Cluster.StepConcurrencyLevel c)));
  remove_tags cluster_id keys :=
    scripted (on_cluster cluster_id
                (λ c, Cluster.mk (without_keys keys (Cluster.Tags c))
                                 (Cluster.StepConcurrencyLevel c)))
|}.

(** An invocation on one cluster ["j-1"] with the given tags and level and
    nothing logged yet. *)
Definition start (tags : list Tag) (level : Z) (script : list (option string))
  (model previous : ResourceModel) : State World :=
  mkState (mkWorld {[ "j-1" := Cluster.mk tags level ]} script) []
          (mkRequest model previous).

Definition owner_tag : Tag := mkTag "StepConcurrencyUID" "cluster:j-1".

(** A declared model for that cluster. *)
Definition model (level : PyVal) (uid : option string) : ResourceModel :=
  mkModel "j-1" level uid.

Definition owned : option string := Some "cluster:j-1".

(** The invocations the properties below are exercised on.  The cluster is
    [unclaimed] (no tag) or [claimed] (it carries [owner_tag]); the remote
    level is 9 before the call. *)
Definition unclaimed (script : list (option string))
  (declared previous : ResourceModel) : State World :=
  start [] 9 script declared previous.

Definition claimed (script : list (option string))
  (declared previous : ResourceModel) : State World :=
  start [owner_tag] 9 script declared previous.

Definition throttled : option string := Some "ThrottlingException".

End Mock.

(** ** Properties of the lifecycle contract *)

Section Properties.

Context {W : Type} (client : EmrClient W).

(** The declared model and the previous model of an invocation. *)
Definition declared (st : State W) : ResourceModel :=
  desiredResourceState (request st).

Definition previous (st : State W) : ResourceModel :=
  previousResourceState (request st).

(** The invocation ends in one of the four documented error kinds. *)
Definition fails_with {A} (code : HandlerErrorCode) (r : Exn + A) : Prop :=
  ∃ e, r = inl e ∧ handler_error_code e = Some code.

(** What [get_uid] answers for the declared cluster: the ownership tag
    ([None] when the cluster has none), or the text of the failed describe
    call. *)
Definition observed_tag (st : State W) : string + option string :=
  (get_uid client (ClusterId (declared st)) st).2.

(** The calls an invocation adds to the log. *)
Definition issued_by (h : Eff (W:=W) Exn ProgressEvent) (st : State W)
  : list Issued :=
  drop (length (calls st)) (calls (h st).1).

(** The invocation with another declared level. *)
Definition with_level (v : PyVal) (st : State W) : State W :=
  mkState (remote st) (calls st)
    (mkRequest (set_StepConcurrencyLevel v (declared st)) (previous st)).

(** The literal each handler puts in front of the text of a caught
    exception. *)
Definition failure_prefix (action : Action) : string :=
  match action with
  | CREATE => "Failed Create: "
  | UPDATE => "Failed Update: "
  | DELETE => "Failed Delete: "
  | READ => "Failed Read: "
  end.

(** An observation of the remote world that describe calls leave alone. *)
Definition describe_preserves {A} (obs : W → A) : Prop :=
  ∀ cluster_id w, obs (describe_cluster client cluster_id w).1 = obs w.

(** The calls an action may issue for the declared cluster: describe calls
    by all; [modify_cluster] with a level in [1, 256] by Create and Update
    and with level 1 by Delete; [add_tags] of the ownership tag by Create;
    [remove_tags] of its key by Delete. *)
Definition allowed (action : Action) (cid : string) (c : Call) : Prop :=
  match c with
  | DescribeCluster c' => c' = cid
  | ModifyCluster c' n =>
      c' = cid ∧ match action with
                 | CREATE | UPDATE => 1 ≤ n ≤ 256
                 | DELETE => n = 1
                 | READ => False
                 end
  | AddTags c' tags =>
      action = CREATE ∧ c' = cid
      ∧ tags = [mkTag "StepConcurrencyUID" (cluster_uid cid)]
  | RemoveTags c' keys =>
      action = DELETE ∧ c' = cid ∧ keys = ["StepConcurrencyUID"]
  end.

(** The most calls an invocation makes. *)
Definition call_budget (action : Action) : nat :=
  match action with
  | CREATE | DELETE => 3
  | UPDATE | READ => 2
  end.

(** The exceptions that can come out of each handler. *)
Definition may_raise (action : Action) (e : Exn) : bool :=
  match action, e with
  | CREATE, NotFound _ _ => false
  | UPDATE, AlreadyExists _ _ => false
  | (DELETE | READ),
    (AlreadyExists _ _ | InvalidRequest _ | ValueError _ | TypeError) => false
  | _, _ => true
  end.

(** The next invocation: another request on the world and the log that an
    invocation left. *)
Definition next_request (st : State W) (req : ResourceHandlerRequest)
  : State W :=
  mkState (remote st) (calls st) req.

(** What the handlers rely on from the service between invocations: an
    ownership tag written by [add_tags] is the one a following describe call
    shows, and after [remove_tags] of its key a following describe call
    shows none. *)
Definition tag_write_visible : Prop :=
  ∀ cid v w w1 w2 r,
    add_tags client cid [mkTag "StepConcurrencyUID" v] w = (w1, inr ()) →
    describe_cluster client cid w1 = (w2, inr r) →
    first_uid_tag (Cluster.Tags r) = Some v.

Definition tag_removal_visible : Prop :=
  ∀ cid w w1 w2 r,
    remove_tags client cid ["StepConcurrencyUID"] w = (w1, inr ()) →
    describe_cluster client cid w1 = (w2, inr r) →
    first_uid_tag (Cluster.Tags r) = None.

(** The invocation with another previous model, and with another declared
    [UID]. *)
Definition with_previous (p : ResourceModel) (st : State W) : State W :=
  mkState (remote st) (calls st) (mkRequest (declared st) p).

Definition with_uid (u : option string) (st : State W) : State W :=
  mkState (remote st) (calls st)
    (mkRequest (set_UID u (declared st)) (previous st)).

Lemma issued_nothing (l : list Issued) : drop (length l) l = [].
Proof. apply drop_all. Qed.

Lemma issued_suffix (l more : list Issued) : drop (length l) (l ++ more) = more.
Proof. apply drop_app_length. Qed.

Lemma cluster_uid_inj (a b : string) : cluster_uid a = cluster_uid b → a = b.
Proof. unfold cluster_uid. apply (inj (String.app "cluster:")). Qed.

Lemma out_of_range_spec (n : Z) : out_of_range n = true ↔ n < 1 ∨ 256 < n.
Proof. unfold out_of_range. rewrite orb_true_iff. lia. Qed.

Lemma in_range_spec (n : Z) : out_of_range n = false ↔ 1 ≤ n ≤ 256.
Proof. unfold out_of_range. rewrite orb_false_iff. lia. Qed.


Lemma int_raises_undocumented (v : PyVal) (e : Exn) :
  PyInt.int v = inl e → handler_error_code e = None.
Proof.
  destruct v as [n|s|]; simpl; [done| |by intros [= <-]].
  destruct (PyInt.of_string s); [done|by intros [= <-]].
Qed.

(** *** Running a handler symbolically

    The handlers have no loop over the client: a proof unfolds one down to
    the calls it makes, splits on what the conversion, the tests and each
    call answer, and is left with one goal per path through the handler. *)

Ltac unfold_handlers :=
  unfold handler, create_handler, update_handler, delete_handler,
    read_handler, observed_tag, issued_by, with_level, declared, previous,
    uncaught, get_uid, get_concurrency_level, get_cluster_info, try_except,
    issue, bind, ret, raise, of_result, get_model, get_previous_model, assign,
    fails_with in *;
  simpl in *.

Ltac split_calls :=
  repeat match goal with
         | H : context [ describe_cluster _ _ _ ] |- _ => revert H
         end;
  repeat (simpl;
    match goal with
    | |- context [ decide ?P ] => destruct (decide P)
    | H : PyInt.int ?v = _ |- context [ PyInt.int ?v ] => rewrite H
    | |- context [ PyInt.int ?v ] =>
        let E := fresh "Hint" in
        destruct (PyInt.int v) eqn:E;
        [pose proof (int_raises_undocumented _ _ E)|]
    | |- context [ out_of_range ?n ] =>
        let E := fresh "Hrange" in
        destruct (out_of_range n) eqn:E;
        [rewrite out_of_range_spec in E|rewrite in_range_spec in E]
    | |- context [ describe_cluster ?cl ?a ?w ] =>
        destruct (describe_cluster cl a w) as [? [?|?]] eqn:?
    | |- context [ modify_cluster ?cl ?a ?n ?w ] =>
        destruct (modify_cluster cl a n w) as [? [?|[]]] eqn:?
    | |- context [ add_tags ?cl ?a ?l ?w ] =>
        destruct (add_tags cl a l w) as [? [?|[]]] eqn:?
    | |- context [ remove_tags ?cl ?a ?l ?w ] =>
        destruct (remove_tags cl a l w) as [? [?|[]]] eqn:?
    end).

Ltac log_suffix :=
  simpl; rewrite <- ?app_assoc;
  rewrite ?issued_suffix, ?issued_nothing; simpl.

Ltac enter := cbv zeta; repeat (intros; split_and?).

Ltac finish :=
  repeat match goal with
         | H : ∃ _, _ |- _ => destruct H
         | H : _ ∧ _ |- _ => destruct H
         end;
  simplify_eq/=;
  solve [ done | congruence | lia | f_equal; congruence
        | repeat esplit; first [ done | congruence ] ].

Ltac settle :=
  intros; simplify_eq/=; split_and?;
  try first [ finish | split; intros; finish | intros ?; finish ].

Ltac run_handlers := enter; unfold_handlers; split_calls; log_suffix; settle.

(** *** Ownership *)

(** C1. Read, Delete and Update fail with [NotFound] exactly when the
    describe call returned and the ownership tag it shows (absent counts as
    a value) differs from the declared model's [UID]; for Update this is
    under the hypothesis that the level is an integer in [1, 256] and the
    declared [UID] equals the previous one, the checks that come first.
    When a handler fails with [NotFound], the one call it issued is that
    describe call: no mutation call has been issued. *)
Theorem not_found_iff_tag_differs (st : State W) :
  let cid := ClusterId (declared st) in
  let foreign := ∃ tag, observed_tag st = inr tag ∧ tag ≠ UID (declared st) in
  let described_only (h : Eff Exn ProgressEvent) :=
    fails_with CodeNotFound (h st).2 →
    (h st).2 = inl (NotFound TYPE_NAME cid)
    ∧ issued_by h st = [mkIssued (DescribeCluster cid) None] in
  (fails_with CodeNotFound (read_handler client st).2 ↔ foreign)
  ∧ (fails_with CodeNotFound (delete_handler client st).2 ↔ foreign)
  ∧ (∀ n, PyInt.int (StepConcurrencyLevel (declared st)) = inr n →
          UID (declared st) = UID (previous st) →
          1 ≤ n ≤ 256 →
          fails_with CodeNotFound (update_handler client st).2 ↔ foreign)
  ∧ described_only (read_handler client)
  ∧ described_only (delete_handler client)
  ∧ described_only (update_handler client).
Proof. run_handlers. Qed.

(** C2. For an integer level, Create fails with [AlreadyExists] exactly when
    the ownership tag observed on the cluster is ["cluster:" + ClusterId].
    With the tag absent or holding any other value Create goes on: to the
    range check, and for a level in range to the [modify_cluster] call.  No
    other tag stops it. *)
Theorem create_already_exists_iff (st : State W) (n : Z) :
  PyInt.int (StepConcurrencyLevel (declared st)) = inr n →
  let cid := ClusterId (declared st) in
  (fails_with CodeAlreadyExists (create_handler client st).2
   ↔ observed_tag st = inr (Some (cluster_uid cid)))
  ∧ (∀ tag, observed_tag st = inr tag → tag ≠ Some (cluster_uid cid) →
       ¬ fails_with CodeAlreadyExists (create_handler client st).2
       ∧ if out_of_range n then
           (create_handler client st).2
           = inl (InvalidRequest (range_message n))
         else
           ∃ rest, call <$> issued_by (create_handler client) st
                   = DescribeCluster cid :: ModifyCluster cid n :: rest).
Proof. run_handlers. Qed.

(** C4. An Update whose declared [UID] differs from the previous model's
    fails with [InvalidRequest], whatever the (integer) level and whatever
    the cluster carries: the test comes before the range check and before
    the ownership check, so not even the describe call is issued. *)
Theorem update_rejects_changed_uid (st : State W) (n : Z) :
  PyInt.int (StepConcurrencyLevel (declared st)) = inr n →
  UID (declared st) ≠ UID (previous st) →
  (update_handler client st).2 = inl (InvalidRequest "Cannot update the UID")
  ∧ issued_by (update_handler client) st = []
  ∧ remote (update_handler client st).1 = remote st.
Proof.
  intros Hn Hu. unfold_handlers. rewrite Hn. simpl.
  destruct (decide _) as [_|Hsame]; [|done]. simpl. by log_suffix.
Qed.

(** *** Range validation *)

(** C3, as the code has it. The levels 0 and 257 are out of range and 1 and
    256 are in range.  For an integer level below 1 or above 256, Create
    raises [InvalidRequest] when the describe call returned and the observed
    tag is not the derived UID (the ownership test comes first), and Update
    raises [InvalidRequest] always.  For a level in [1, 256] Create never
    raises [InvalidRequest], and Update does not either when the declared
    [UID] equals the previous one. *)
Theorem range_check_after_earlier_checks (st : State W) (n : Z) :
  PyInt.int (StepConcurrencyLevel (declared st)) = inr n →
  let cid := ClusterId (declared st) in
  (out_of_range 0 = true ∧ out_of_range 257 = true
   ∧ out_of_range 1 = false ∧ out_of_range 256 = false)
  ∧ (n < 1 ∨ 256 < n →
     (∀ tag, observed_tag st = inr tag → tag ≠ Some (cluster_uid cid) →
        (create_handler client st).2 = inl (InvalidRequest (range_message n)))
     ∧ fails_with CodeInvalidRequest (update_handler client st).2)
  ∧ (1 ≤ n ≤ 256 →
     ¬ fails_with CodeInvalidRequest (create_handler client st).2
     ∧ (UID (declared st) = UID (previous st) →
        ¬ fails_with CodeInvalidRequest (update_handler client st).2)).
Proof. run_handlers. Qed.

(** *** Delete *)

(** C5, as the code has it. A Delete on a cluster whose observed ownership
    tag equals the declared [UID] issues [modify_cluster] with level 1; when
    that call returns, it issues [remove_tags] for exactly the key
    ["StepConcurrencyUID"]; when both return, the result is [SUCCESS] with
    no model.  A Delete that succeeds has issued exactly the describe call
    and these two, and none raised. *)
Theorem delete_resets_then_untags (st : State W) :
  observed_tag st = inr (UID (declared st)) →
  let cid := ClusterId (declared st) in
  let described := describe_cluster client cid (remote st) in
  let modified := modify_cluster client cid 1 described.1 in
  let untagged := remove_tags client cid ["StepConcurrencyUID"] modified.1 in
  (∃ rest, call <$> issued_by (delete_handler client) st
           = DescribeCluster cid :: ModifyCluster cid 1 :: rest)
  ∧ (modified.2 = inr () →
     call <$> issued_by (delete_handler client) st
     = [DescribeCluster cid; ModifyCluster cid 1;
        RemoveTags cid ["StepConcurrencyUID"]])
  ∧ (modified.2 = inr () → untagged.2 = inr () →
     (delete_handler client st).2 = inr (mkEvent SUCCESS None))
  ∧ (∀ ev, (delete_handler client st).2 = inr ev →
     ev = mkEvent SUCCESS None
     ∧ resulting_model (delete_handler client st).1 ev = None
     ∧ issued_by (delete_handler client) st
       = [mkIssued (DescribeCluster cid) None;
          mkIssued (ModifyCluster cid 1) None;
          mkIssued (RemoveTags cid ["StepConcurrencyUID"]) None]).
Proof. run_handlers. Qed.

(** *** Failures *)

(** C6. When one of the four handlers raises [AlreadyExists],
    [InvalidRequest] or [NotFound], none of the calls it issued is a
    mutating one ([modify_cluster], [add_tags], [remove_tags]); the log has
    only grown by those calls, and whatever can be observed of the remote
    world that describe calls leave alone (the cluster's level and tags) is
    as it was before the request. *)
Theorem rejection_precedes_mutation (action : Action) (st : State W) (e : Exn) :
  (handler client action st).2 = inl e →
  rejection e = true →
  Forall (λ i, mutating (call i) = false) (issued_by (handler client action) st)
  ∧ calls (handler client action st).1
    = calls st ++ issued_by (handler client action) st
  ∧ ∀ A (obs : W → A), describe_preserves obs →
      obs (remote (handler client action st).1) = obs (remote st).
Proof.
  unfold describe_preserves.
  destruct action; unfold_handlers; split_calls; log_suffix;
    intros [= <-] Hrej;
    try discriminate Hrej;
    try (by destruct e0);
    (split_and!;
     [ repeat constructor
     | by rewrite ?app_nil_r
     | intros A obs Hobs; try done;
       match goal with
       | H : describe_cluster _ ?c ?w = _ |- _ =>
           specialize (Hobs c w); by rewrite H in Hobs
       end ]).
Qed.

(** C7, as the code has it. Whenever a call issued by one of the four
    handlers raises, it is the last call of the invocation.  If it is the
    first one (the describe call that reads the ownership tag, made outside
    the [try] block) the handler lets the client's exception through
    unchanged; if it is any later call, the handler raises
    [InternalFailure] with the message ["Failed <Operation>: "] followed by
    the text of the exception. *)
Theorem client_failure_translation (action : Action) (st : State W)
    (before after : list Issued) (c : Call) (text : string) :
  issued_by (handler client action) st
  = before ++ mkIssued c (Some text) :: after →
  after = []
  ∧ (before = [] → c = DescribeCluster (ClusterId (declared st))
                   ∧ (handler client action st).2 = inl (ClientError text))
  ∧ (before ≠ [] →
     (handler client action st).2
     = inl (InternalFailure (failure_prefix action +:+ text))).
Proof.
  destruct action; unfold_handlers; split_calls; log_suffix; intros Hlog;
    destruct before as [|? [|? [|? [|? ?]]]]; by simplify_eq/=.
Qed.

(** *** The ownership UID *)

(** C8. Create leaves [ClusterId] alone and always sets the declared model's
    [UID] to ["cluster:" + ClusterId], which is the [UID] of the model its
    event carries on success.  So two Create invocations compute the same
    [UID] exactly when their [ClusterId]s are the same: the same id gives
    the same UID, distinct ids give distinct UIDs. *)
Theorem uid_is_function_of_cluster_id :
  (∀ st : State W,
     UID (declared (create_handler client st).1)
     = Some (cluster_uid (ClusterId (declared st)))
     ∧ ClusterId (declared (create_handler client st).1)
       = ClusterId (declared st))
  ∧ (∀ (st : State W) ev,
       (create_handler client st).2 = inr ev →
       UID <$> resulting_model (create_handler client st).1 ev
       = Some (Some (cluster_uid (ClusterId (declared st)))))
  ∧ (∀ st1 st2 : State W,
       UID (declared (create_handler client st1).1)
       = UID (declared (create_handler client st2).1)
       ↔ ClusterId (declared st1) = ClusterId (declared st2)).
Proof.
  assert (Huid : ∀ st : State W,
            UID (declared (create_handler client st).1)
            = Some (cluster_uid (ClusterId (declared st)))).
  { by run_handlers. }
  split_and!.
  - intros st. split; [apply Huid|]. by run_handlers.
  - unfold resulting_model. run_handlers.
  - intros st1 st2. rewrite !Huid. split.
    + intros Heq. apply cluster_uid_inj. congruence.
    + by intros ->.
Qed.

(** C9. When the declared model has no [UID] and the cluster has no
    ["StepConcurrencyUID"] tag, the ownership test of Read, Delete and
    Update passes: none of them fails with [NotFound].  Read goes on to
    fetch the level, Delete to [modify_cluster] with level 1 and, that call
    returning, to [remove_tags]; Update (its earlier checks passing) to
    [modify_cluster] with the declared level. *)
Theorem absent_uid_matches_absent_tag (st : State W) :
  UID (declared st) = None →
  observed_tag st = inr None →
  let cid := ClusterId (declared st) in
  let described := describe_cluster client cid (remote st) in
  let modified := modify_cluster client cid 1 described.1 in
  (¬ fails_with CodeNotFound (read_handler client st).2
   ∧ call <$> issued_by (read_handler client) st
     = [DescribeCluster cid; DescribeCluster cid])
  ∧ (¬ fails_with CodeNotFound (delete_handler client st).2
     ∧ (∃ rest, call <$> issued_by (delete_handler client) st
                = DescribeCluster cid :: ModifyCluster cid 1 :: rest)
     ∧ (modified.2 = inr () →
        call <$> issued_by (delete_handler client) st
        = [DescribeCluster cid; ModifyCluster cid 1;
           RemoveTags cid ["StepConcurrencyUID"]]))
  ∧ (∀ n, PyInt.int (StepConcurrencyLevel (declared st)) = inr n →
          UID (previous st) = None → 1 ≤ n ≤ 256 →
          ¬ fails_with CodeNotFound (update_handler client st).2
          ∧ call <$> issued_by (update_handler client) st
            = [DescribeCluster cid; ModifyCluster cid n]).
Proof. run_handlers. Qed.

(** *** The conversion of the level *)


(** *** More on the readers and the handlers *)

Lemma first_uid_tag_none (tags : list Tag) :
  first_uid_tag tags = None
  ↔ ∀ tag, tag ∈ tags → Key tag ≠ "StepConcurrencyUID".
Proof.
  induction tags as [|t tags IH]; simpl.
  - split; [|done]. intros _ tag Hin. by apply elem_of_nil in Hin.
  - destruct (String.eqb_spec (Key t) "StepConcurrencyUID") as [Hk|Hk].
    + split; [done|]. intros Hall. destruct (Hall t); [left|done].
    + rewrite IH. split.
      * intros Hall tag [->|Hin]%elem_of_cons; auto.
      * intros Hall tag Hin. apply Hall. by right.
Qed.

Lemma first_uid_tag_some (tags : list Tag) (v : string) :
  first_uid_tag tags = Some v
  ↔ ∃ before tag after,
      tags = before ++ tag :: after
      ∧ Key tag = "StepConcurrencyUID" ∧ Value tag = v
      ∧ ∀ t, t ∈ before → Key t ≠ "StepConcurrencyUID".
Proof.
  induction tags as [|t tags IH]; simpl.
  - split; [done|]. intros (before & tag & after & Heq & _).
    by destruct before.
  - destruct (String.eqb_spec (Key t) "StepConcurrencyUID") as [Hk|Hk].
    + split.
      * intros [= <-]. exists [], t, tags. split_and!; try done.
        intros t' Hin. by apply elem_of_nil in Hin.
      * intros ([|t' before] & tag & after & Heq & Hkey & Hval & Hbefore);
          simplify_eq/=; [done|].
        destruct (Hbefore t'); [left|done].
    + rewrite IH. split.
      * intros (before & tag & after & -> & Hkey & Hval & Hbefore).
        exists (t :: before), tag, after. split_and!; try done.
        intros t' [->|Hin]%elem_of_cons; auto.
      * intros ([|t' before] & tag & after & Heq & Hkey & Hval & Hbefore);
          simplify_eq/=.
        exists before, tag, after. split_and!; try done.
        intros t0 Hin. apply Hbefore. by right.
Qed.

(** X1. When the describe call returns, [get_uid] answers [None] exactly when
    no tag of the cluster has the key ["StepConcurrencyUID"] (compared as
    it is, letter for letter), and answers [v] exactly when [v] is the value
    of the first tag with that key: later tags with the same key are not
    looked at. *)
Theorem get_uid_first_match (cluster_id : string) (st : State W)
    (w : W) (r : Cluster.t) :
  describe_cluster client cluster_id (remote st) = (w, inr r) →
  let answer := (get_uid client cluster_id st).2 in
  (answer = inr None
   ↔ ∀ tag, tag ∈ Cluster.Tags r → Key tag ≠ "StepConcurrencyUID")
  ∧ (∀ v, answer = inr (Some v)
          ↔ ∃ before tag after,
              Cluster.Tags r = before ++ tag :: after
              ∧ Key tag = "StepConcurrencyUID" ∧ Value tag = v
              ∧ ∀ t, t ∈ before → Key t ≠ "StepConcurrencyUID").
Proof.
  intros Hd. unfold get_uid, get_cluster_info, issue, bind, ret. simpl.
  rewrite Hd. simpl. split.
  - rewrite <- first_uid_tag_none. split; [by intros [= ->]|by intros ->].
  - intros v. rewrite <- first_uid_tag_some.
    split; [by intros [= ->]|by intros ->].
Qed.

(** X2. Whatever the service answers, every call a handler issues is one its
    action may issue, on the declared cluster: Read only describes; Update
    never touches tags; Create never removes a tag and Delete never adds
    one; no [modify_cluster] call ever carries a level outside [1, 256],
    and Delete's carries 1.  An invocation makes at most three calls (two
    for Update and Read); the first is the describe call, and another call
    follows only when that one returned. *)
Theorem handlers_issue_allowed_calls (action : Action) (st : State W) :
  let cid := ClusterId (declared st) in
  let issued := issued_by (handler client action) st in
  Forall (λ i, allowed action cid (call i)) issued
  ∧ (length issued ≤ call_budget action)%nat
  ∧ match issued with
    | [] => True
    | first :: rest =>
        call first = DescribeCluster cid ∧ (rest ≠ [] → raised first = None)
    end.
Proof.
  destruct action; unfold_handlers; split_calls; log_suffix;
    (split; [|split];
     [ repeat constructor; simpl; try done; try lia
     | lia
     | try done ]).
Qed.

(** X3. A handler that returns has finished: the status of the event is
    [SUCCESS], never [IN_PROGRESS] or [FAILED], every call it issued
    returned, and the event carries the declared model, except for Delete,
    whose event carries none. *)
Theorem returned_event_is_success (action : Action) (st : State W)
    (ev : ProgressEvent) :
  (handler client action st).2 = inr ev →
  status ev = SUCCESS
  ∧ (resourceModel ev = None ↔ action = DELETE)
  ∧ Forall (λ i, raised i = None) (issued_by (handler client action) st).
Proof.
  destruct action; unfold_handlers; split_calls; log_suffix; intros [= <-];
    (split; [|split]; [done | done | repeat constructor]).
Qed.

(** X4. What each handler can raise.  Create never raises [NotFound] and
    Update never raises [AlreadyExists]; Delete and Read raise neither
    [AlreadyExists] nor [InvalidRequest], nor a conversion error, since they
    do not convert the level.  [AlreadyExists] and [NotFound] always name
    the resource type and the declared [ClusterId]. *)
Theorem raised_exceptions (action : Action) (st : State W) (e : Exn) :
  (handler client action st).2 = inl e →
  may_raise action e = true
  ∧ ∀ type_name identifier,
      e = AlreadyExists type_name identifier
      ∨ e = NotFound type_name identifier →
      type_name = TYPE_NAME ∧ identifier = ClusterId (declared st).
Proof.
  destruct action; unfold_handlers; split_calls; log_suffix; intros [= <-];
    (split; [try done|intros ? ? [?|?]; by simplify_eq]).
  all: by destruct e0.
Qed.

(** X5. What the handlers write into the request.  None changes the
    previous model or the declared [ClusterId]; only Create changes the
    declared [UID]; Delete changes nothing at all, and Read changes nothing
    when it raises.  Create and Update leave the declared level converted
    to its integer as soon as the conversion succeeds, also when they raise
    afterwards. *)
Theorem request_after_handler (action : Action) (st : State W) :
  let st' := (handler client action st).1 in
  previous st' = previous st
  ∧ ClusterId (declared st') = ClusterId (declared st)
  ∧ (action ≠ CREATE → UID (declared st') = UID (declared st))
  ∧ (action = DELETE → request st' = request st)
  ∧ (action = READ → (∃ e, (handler client action st).2 = inl e) →
     request st' = request st)
  ∧ (action = CREATE ∨ action = UPDATE →
     ∀ n, PyInt.int (StepConcurrencyLevel (declared st)) = inr n →
          StepConcurrencyLevel (declared st') = VInt n).
Proof.
  destruct action; unfold_handlers; split_calls; log_suffix;
    (split_and!; try done;
     try (by intros [?|?]); try (by destruct (request st));
     try (by intros _ [? ?]); try (by intros _ ? [= <-])).
Qed.


(** X7. Create is not atomic.  When [modify_cluster] returned and [add_tags]
    raises, Create raises [InternalFailure] and stops: the level change has
    been issued, the tag has not been written, and no call follows to undo
    the change. *)
Theorem create_does_not_roll_back (st : State W) (n : Z)
    (tag : option string) (w2 w3 : W) (text : string) :
  let cid := ClusterId (declared st) in
  let tags := [mkTag "StepConcurrencyUID" (cluster_uid cid)] in
  let w1 := (describe_cluster client cid (remote st)).1 in
  PyInt.int (StepConcurrencyLevel (declared st)) = inr n →
  1 ≤ n ≤ 256 →
  observed_tag st = inr tag →
  tag ≠ Some (cluster_uid cid) →
  modify_cluster client cid n w1 = (w2, inr ()) →
  add_tags client cid tags w2 = (w3, inl text) →
  create_handler client st
  = (mkState w3
       (calls st ++ [mkIssued (DescribeCluster cid) None;
                     mkIssued (ModifyCluster cid n) None;
                     mkIssued (AddTags cid tags) (Some text)])
       (mkRequest (mkModel cid (VInt n) (Some (cluster_uid cid)))
                  (previous st)),
     inl (InternalFailure ("Failed Create: " +:+ text))).
Proof.
  cbv zeta. intros Hn Hrange Htag Hne Hmodify Hadd.
  apply in_range_spec in Hrange.
  unfold_handlers. rewrite Hn. simpl.
  destruct (describe_cluster _ _ _) as [w1 [t|r]]; simplify_eq/=.
  destruct (decide _) as [|_]; [done|].
  rewrite Hrange. simpl. rewrite Hmodify. simpl. rewrite Hadd. simpl.
  by rewrite <- !app_assoc.
Qed.


(** X9. Read succeeds exactly when the first describe call returns the
    declared [UID] as tag and the second describe call returns.  The level
    it reports is the one in the second response, not in the response the
    tag was read from; [ClusterId] and [UID] are reported as declared.  In
    every outcome Read has left alone whatever describe calls leave
    alone. *)
Theorem read_reports_second_describe (st : State W) (ev : ProgressEvent) :
  let cid := ClusterId (declared st) in
  ((read_handler client st).2 = inr ev
   ↔ ∃ w1 r1 w2 r2,
       describe_cluster client cid (remote st) = (w1, inr r1)
       ∧ first_uid_tag (Cluster.Tags r1) = UID (declared st)
       ∧ describe_cluster client cid w1 = (w2, inr r2)
       ∧ ev = mkEvent SUCCESS (Some desired_ref)
       ∧ remote (read_handler client st).1 = w2
       ∧ resulting_model (read_handler client st).1 ev
         = Some (mkModel cid (VInt (Cluster.StepConcurrencyLevel r2))
                         (UID (declared st))))
  ∧ ∀ A (obs : W → A), describe_preserves obs →
      obs (remote (read_handler client st).1) = obs (remote st).
Proof.
  unfold resulting_model, describe_preserves.
  unfold_handlers; split_calls; log_suffix;
    (split;
     [ split;
       [ intros Hev;
         first [ discriminate Hev
               | injection Hev as <-;
                 eexists _, _, _, _; split; [reflexivity|];
                 split; [symmetry; by apply dec_stable|];
                 split; [eassumption|]; by split_and! ]
       | intros (w1' & r1' & w2' & r2' & ? & ? & ? & ? & ? & ?);
         simplify_eq/=; try congruence ]
     | intros A obs Hobs;
       repeat match goal with
              | H : describe_cluster _ ?c ?w = _ |- _ =>
                  let Hw := fresh in
                  pose proof (Hobs c w) as Hw; rewrite H in Hw; clear H
              end;
       simpl in *; congruence ]).
Qed.

(** X10. Delete and Read do not look at the declared level: with any other
    value in its place, one that [int] would refuse included, they issue the
    same calls, leave the same world and end the same way. *)
Theorem delete_and_read_ignore_level (v : PyVal) (st : State W) :
  ((delete_handler client (with_level v st)).2 = (delete_handler client st).2
   ∧ remote (delete_handler client (with_level v st)).1
     = remote (delete_handler client st).1
   ∧ calls (delete_handler client (with_level v st)).1
     = calls (delete_handler client st).1)
  ∧ ((read_handler client (with_level v st)).2 = (read_handler client st).2
     ∧ remote (read_handler client (with_level v st)).1
       = remote (read_handler client st).1
     ∧ calls (read_handler client (with_level v st)).1
       = calls (read_handler client st).1).
Proof.
  unfold_handlers; split_calls; by split_and!.
Qed.

(** X11. Where the range check sits.  Update raises [InvalidRequest] before
    it contacts the service at all, while Create raises [InvalidRequest], as
    it raises [AlreadyExists], only after one describe call that
    returned. *)
Theorem invalid_request_and_describe (st : State W) :
  let cid := ClusterId (declared st) in
  (fails_with CodeInvalidRequest (update_handler client st).2 →
   issued_by (update_handler client) st = [])
  ∧ (fails_with CodeInvalidRequest (create_handler client st).2
     ∨ fails_with CodeAlreadyExists (create_handler client st).2 →
     issued_by (create_handler client) st
     = [mkIssued (DescribeCluster cid) None]).
Proof.
  unfold_handlers; split_calls; log_suffix;
    (split; [intros (e' & He & Hc)|intros [(e' & He & Hc)|(e' & He & Hc)]];
     simplify_eq/=; try done;
     try (pose proof (int_raises_undocumented _ _ Hint); congruence)).
Qed.

(** *** One invocation after another *)

Ltac use_tag_laws :=
  repeat match goal with
         | Hlaw : tag_write_visible,
           Ha : add_tags _ ?c _ _ = (?w, inr ()),
           Hd : describe_cluster _ ?c ?w = (_, inr ?r) |- _ =>
             lazymatch goal with
             | _ : first_uid_tag (Cluster.Tags r) = Some _ |- _ => fail
             | _ => pose proof (Hlaw _ _ _ _ _ _ Ha Hd)
             end
         | Hlaw : tag_removal_visible,
           Ha : remove_tags _ ?c _ _ = (?w, inr ()),
           Hd : describe_cluster _ ?c ?w = (_, inr ?r) |- _ =>
             lazymatch goal with
             | _ : first_uid_tag (Cluster.Tags r) = None |- _ => fail
             | _ => pose proof (Hlaw _ _ _ _ _ Ha Hd)
             end
         end.

Lemma create_success_world (st : State W) (ev : ProgressEvent) :
  (create_handler client st).2 = inr ev →
  ∃ w,
    add_tags client (ClusterId (declared st))
      [mkTag "StepConcurrencyUID" (cluster_uid (ClusterId (declared st)))] w
    = (remote (create_handler client st).1, inr ()).
Proof.
  unfold_handlers; split_calls; intros [= <-]. by eexists.
Qed.

Lemma delete_success_world (st : State W) (ev : ProgressEvent) :
  (delete_handler client st).2 = inr ev →
  ∃ w,
    remove_tags client (ClusterId (declared st)) ["StepConcurrencyUID"] w
    = (remote (delete_handler client st).1, inr ()).
Proof.
  unfold_handlers; split_calls; intros [= <-]. by eexists.
Qed.

(** X12. Create claims the cluster.  On a service that shows a written tag
    to the next describe call, after a Create that succeeded a second Create
    for the same [ClusterId], declared with whatever (integer) level,
    issues no mutating call, and raises [AlreadyExists] as soon as its
    describe call returns; and a Read, Update or Delete that declares the
    derived UID does not raise [NotFound]. *)
Theorem create_claims_cluster (st : State W) (ev : ProgressEvent)
    (req : ResourceHandlerRequest) :
  tag_write_visible →
  (create_handler client st).2 = inr ev →
  ClusterId (desiredResourceState req) = ClusterId (declared st) →
  let cid := ClusterId (declared st) in
  let st2 := next_request (create_handler client st).1 req in
  (∀ n, PyInt.int (StepConcurrencyLevel (desiredResourceState req)) = inr n →
     Forall (λ i, mutating (call i) = false)
            (issued_by (create_handler client) st2)
     ∧ ∀ w r, describe_cluster client cid (remote st2) = (w, inr r) →
         (create_handler client st2).2 = inl (AlreadyExists TYPE_NAME cid))
  ∧ (UID (desiredResourceState req) = Some (cluster_uid cid) →
     ∀ action, action ≠ CREATE →
       ¬ fails_with CodeNotFound (handler client action st2).2).
Proof.
  intros Hlaw Hev Hcid. destruct req as [[cid2 level2 uid2] previous2].
  simpl in Hcid. subst cid2. cbv zeta.
  destruct (create_success_world st ev Hev) as (w & Hadd). clear Hev.
  revert Hadd. generalize (create_handler client st).1. intros st1 Hadd.
  unfold next_request, declared in *. split.
  - intros n Hn. revert Hn.
    unfold_handlers; split_calls; log_suffix; intros; simplify_eq/=;
      use_tag_laws; (split; [repeat constructor|]); intros; simplify_eq/=;
      congruence.
  - simpl. intros -> action Haction.
    destruct action; [done|..];
      unfold_handlers; split_calls; log_suffix;
      intros (e' & He & Hcode); simplify_eq/=; use_tag_laws; congruence.
Qed.

(** X13. Delete releases the cluster.  On a service that no longer shows a
    removed tag to the next describe call, after a Delete that succeeded a
    Read or a Delete for the same [ClusterId] that declares some [UID]
    raises [NotFound] as soon as its describe call returns, and issues no
    mutating call; and a Create for that [ClusterId] does not raise
    [AlreadyExists]. *)
Theorem delete_releases_cluster (st : State W) (ev : ProgressEvent)
    (req : ResourceHandlerRequest) :
  tag_removal_visible →
  (delete_handler client st).2 = inr ev →
  ClusterId (desiredResourceState req) = ClusterId (declared st) →
  let cid := ClusterId (declared st) in
  let st2 := next_request (delete_handler client st).1 req in
  (UID (desiredResourceState req) ≠ None →
   ∀ action, action = READ ∨ action = DELETE →
     Forall (λ i, mutating (call i) = false)
            (issued_by (handler client action) st2)
     ∧ ∀ w r, describe_cluster client cid (remote st2) = (w, inr r) →
         (handler client action st2).2 = inl (NotFound TYPE_NAME cid))
  ∧ ¬ fails_with CodeAlreadyExists (create_handler client st2).2.
Proof.
  intros Hlaw Hev Hcid. destruct req as [[cid2 level2 uid2] previous2].
  simpl in Hcid. subst cid2. cbv zeta.
  destruct (delete_success_world st ev Hev) as (w & Hremove). clear Hev.
  revert Hremove. generalize (delete_handler client st).1. intros st1 Hremove.
  unfold next_request, declared in *. split.
  - simpl. intros Huid action [->| ->];
      unfold_handlers; split_calls; log_suffix; intros; simplify_eq/=;
      use_tag_laws;
      try (exfalso;
           match goal with H : ¬ (_ ≠ _) |- _ => apply H; congruence end);
      (split; [repeat constructor|]); intros; simplify_eq/=; congruence.
  - unfold_handlers; split_calls; log_suffix;
      intros (e' & He & Hcode); simplify_eq/=; use_tag_laws;
      try congruence.
    all: by pose proof (int_raises_undocumented _ _ Hint); congruence.
Qed.

(** X14. Delete is not atomic either.  When [modify_cluster] returned and
    [remove_tags] raises, Delete raises [InternalFailure] and stops: the
    level has been reset to 1, the tag is still to be removed, and the
    request is as it was. *)
Theorem delete_does_not_roll_back (st : State W) (w2 w3 : W) (text : string) :
  let cid := ClusterId (declared st) in
  let w1 := (describe_cluster client cid (remote st)).1 in
  observed_tag st = inr (UID (declared st)) →
  modify_cluster client cid 1 w1 = (w2, inr ()) →
  remove_tags client cid ["StepConcurrencyUID"] w2 = (w3, inl text) →
  delete_handler client st
  = (mkState w3
       (calls st ++ [mkIssued (DescribeCluster cid) None;
                     mkIssued (ModifyCluster cid 1) None;
                     mkIssued (RemoveTags cid ["StepConcurrencyUID"])
                              (Some text)])
       (request st),
     inl (InternalFailure ("Failed Delete: " +:+ text))).
Proof.
  cbv zeta. intros Htag Hmodify Hremove.
  unfold_handlers.
  destruct (describe_cluster _ _ _) as [w1 [t|r]]; simplify_eq/=.
  destruct (decide _) as [|_]; [done|].
  simpl. rewrite Hmodify. simpl. rewrite Hremove. simpl.
  by rewrite <- !app_assoc.
Qed.

(** X15. What the handlers do not read.  Create ignores the [UID] the
    request declares (it derives its own) and the previous model; Delete and
    Read ignore the previous model; Update reads of the previous model its
    [UID] only, so that it does not notice a [ClusterId] that differs from
    the previous one.  In each case the calls issued, the world left and the
    outcome are the same. *)
Theorem handlers_ignore (st : State W) (p : ResourceModel)
    (u : option string) :
  let same (h : Eff Exn ProgressEvent) (st1 st2 : State W) :=
    (h st1).2 = (h st2).2
    ∧ remote (h st1).1 = remote (h st2).1
    ∧ calls (h st1).1 = calls (h st2).1 in
  same (create_handler client) (with_uid u (with_previous p st)) st
  ∧ same (delete_handler client) (with_previous p st) st
  ∧ same (read_handler client) (with_previous p st) st
  ∧ (UID p = UID (previous st) →
     same (update_handler client) (with_previous p st) st).
Proof.
  cbv zeta. unfold with_uid, with_previous.
  split_and!; try intros Hp; unfold_handlers; try rewrite Hp;
    split_calls; by split_and?.
Qed.

End Properties.

(** ** The properties on the scripted service *)

(** The scenario of the specification: Create with level 50 on an unclaimed
    cluster, then Read. *)
Example create_then_read :
  let created :=
    create_handler Mock.client
      (Mock.unclaimed [] (Mock.model (VStr "50") None) (Mock.model VNone None)) in
  let read := read_handler Mock.client created.1 in
  call <$> calls created.1
  = [DescribeCluster "j-1"; ModifyCluster "j-1" 50; AddTags "j-1" [Mock.owner_tag]]
  ∧ read.2 = inr (mkEvent SUCCESS (Some desired_ref))
  ∧ resulting_model read.1 (mkEvent SUCCESS (Some desired_ref))
    = Some (mkModel "j-1" (VInt 50) (Some "cluster:j-1")).
Proof. vm_compute. done. Qed.

Example int_of_text :
  PyInt.int <$> [VStr "50"; VStr " 1_000 "; VStr "-7"; VStr "5.0"; VStr ""; VNone]
  = [inr 50; inr 1000; inr (-7); inl (ValueError "5.0"); inl (ValueError "");
     inl TypeError].
Proof. reflexivity. Qed.

Example range_message_257 :
  range_message 257
  = "Step Concurency Level must be between 1 and 256,                 257 was given.".
Proof. reflexivity. Qed.

(** C1 at work: an Update with valid level and unchanged UID on a cluster
    without the tag fails with [NotFound]. *)
Lemma not_found_iff_tag_differs_witness :
  fails_with CodeNotFound
    (update_handler Mock.client
       (Mock.unclaimed [] (Mock.model (VInt 5) Mock.owned)
                          (Mock.model (VInt 9) Mock.owned))).2.
Proof.
  destruct (not_found_iff_tag_differs Mock.client
              (Mock.unclaimed [] (Mock.model (VInt 5) Mock.owned)
                                 (Mock.model (VInt 9) Mock.owned)))
    as (_ & _ & Hupdate & _).
  apply (Hupdate 5); [reflexivity | reflexivity | lia |].
  exists None. split; [vm_compute; reflexivity | discriminate].
Defined.

(** C2 at work: a second Create for ["j-1"] on the cluster that carries
    ["cluster:j-1"] fails with [AlreadyExists]. *)
Lemma create_already_exists_iff_witness :
  fails_with CodeAlreadyExists
    (create_handler Mock.client
       (Mock.claimed [] (Mock.model (VStr "50") None) (Mock.model VNone None))).2.
Proof.
  refine (proj2 (proj1 (create_already_exists_iff Mock.client _ 50 _)) _);
    vm_compute; reflexivity.
Defined.

(** C4 at work: level 5 is valid and the cluster carries the declared UID,
    yet the Update is refused because the previous model had no UID. *)
Lemma update_rejects_changed_uid_witness :
  (update_handler Mock.client
     (Mock.claimed [] (Mock.model (VInt 5) Mock.owned) (Mock.model (VInt 9) None))).2
  = inl (InvalidRequest "Cannot update the UID").
Proof.
  refine (proj1 (update_rejects_changed_uid Mock.client _ 5 _ _));
    [reflexivity | discriminate].
Defined.

(** C3 at work: Create with level 257 on an unclaimed cluster. *)
Lemma range_check_after_earlier_checks_witness :
  (create_handler Mock.client
     (Mock.unclaimed [] (Mock.model (VInt 257) None) (Mock.model VNone None))).2
  = inl (InvalidRequest (range_message 257)).
Proof.
  destruct (range_check_after_earlier_checks Mock.client
              (Mock.unclaimed [] (Mock.model (VInt 257) None)
                                 (Mock.model VNone None)) 257)
    as (_ & Hout & _); [reflexivity|].
  destruct Hout as [Hcreate _]; [lia|].
  apply (Hcreate None); [vm_compute; reflexivity | discriminate].
Defined.

(** C5 at work: Delete on the owned cluster, every call returning. *)
Lemma delete_resets_then_untags_witness :
  (delete_handler Mock.client
     (Mock.claimed [] (Mock.model (VInt 50) Mock.owned) (Mock.model VNone None))).2
  = inr (mkEvent SUCCESS None).
Proof.
  destruct (delete_resets_then_untags Mock.client
              (Mock.claimed [] (Mock.model (VInt 50) Mock.owned)
                               (Mock.model VNone None)))
    as (_ & _ & Hsuccess & _); [vm_compute; reflexivity|].
  apply Hsuccess; vm_compute; reflexivity.
Defined.

(** The scripted describe call reads the clusters and changes none. *)
Lemma mock_describe_preserves_clusters :
  describe_preserves Mock.client Mock.clusters.
Proof.
  intros cluster_id [cs script]. simpl. unfold Mock.scripted. simpl.
  destruct script as [|[text|] rest]; simpl; by destruct (cs !! cluster_id).
Qed.

(** C6 at work: the refused second Create issues no mutating call and leaves
    the clusters as they were. *)
Lemma rejection_precedes_mutation_witness :
  let st :=
    Mock.claimed [] (Mock.model (VInt 50) None) (Mock.model VNone None) in
  Forall (λ i, mutating (call i) = false)
         (issued_by (handler Mock.client CREATE) st)
  ∧ Mock.clusters (remote (handler Mock.client CREATE st).1)
    = Mock.clusters (remote st).
Proof.
  intros st.
  destruct (rejection_precedes_mutation Mock.client CREATE st
              (AlreadyExists TYPE_NAME "j-1"))
    as (Hcalls & _ & Hworld); [vm_compute; reflexivity | reflexivity |].
  split; [exact Hcalls|].
  apply Hworld, mock_describe_preserves_clusters.
Defined.

(** C7 at work: [modify_cluster] raises during an Update that passed its
    checks. *)
Lemma client_failure_translation_witness :
  (update_handler Mock.client
     (Mock.claimed [None; Mock.throttled] (Mock.model (VInt 5) Mock.owned)
                   (Mock.model (VInt 9) Mock.owned))).2
  = inl (InternalFailure "Failed Update: ThrottlingException").
Proof.
  apply (client_failure_translation Mock.client UPDATE
           (Mock.claimed [None; Mock.throttled] (Mock.model (VInt 5) Mock.owned)
                         (Mock.model (VInt 9) Mock.owned))
           [mkIssued (DescribeCluster "j-1") None] []
           (ModifyCluster "j-1" 5) "ThrottlingException");
    [vm_compute; reflexivity | discriminate].
Defined.

(** C8 at work: the model that a successful Create for ["j-1"] returns. *)
Lemma uid_is_function_of_cluster_id_witness :
  UID <$> resulting_model
            (create_handler Mock.client
               (Mock.unclaimed [] (Mock.model (VInt 50) None)
                               (Mock.model VNone None))).1
            (mkEvent SUCCESS (Some desired_ref))
  = Some (Some "cluster:j-1").
Proof.
  refine (proj1 (proj2 (uid_is_function_of_cluster_id Mock.client)) _ _ _).
  vm_compute; reflexivity.
Defined.

(** C9 at work: Delete with no declared UID on a cluster that was never
    claimed resets its level and removes the tag key. *)
Lemma absent_uid_matches_absent_tag_witness :
  call <$> issued_by (delete_handler Mock.client)
             (Mock.unclaimed [] (Mock.model (VInt 50) None)
                             (Mock.model VNone None))
  = [DescribeCluster "j-1"; ModifyCluster "j-1" 1;
     RemoveTags "j-1" ["StepConcurrencyUID"]].
Proof.
  destruct (absent_uid_matches_absent_tag Mock.client
              (Mock.unclaimed [] (Mock.model (VInt 50) None)
                              (Mock.model VNone None)))
    as (_ & (_ & _ & Hdelete) & _); [reflexivity | vm_compute; reflexivity |].
  apply Hdelete. vm_compute; reflexivity.
Defined.


(** ** Where the first statements of C3, C5 and C7 fail *)

(** Against C3 as first stated. Create with level 0 on a cluster that
    already carries the derived UID raises [AlreadyExists], not
    [InvalidRequest]: the ownership test runs before the range check.  And
    Update with the boundary level 1 raises [InvalidRequest] when the
    declared [UID] has changed. *)
Lemma range_claim_counterexample :
  let recreate :=
    Mock.claimed [] (Mock.model (VInt 0) None) (Mock.model VNone None) in
  let retarget :=
    Mock.claimed [] (Mock.model (VInt 1) Mock.owned) (Mock.model (VInt 9) None) in
  (PyInt.int (StepConcurrencyLevel (declared recreate)) = inr 0
   ∧ (create_handler Mock.client recreate).2
     = inl (AlreadyExists TYPE_NAME "j-1")
   ∧ ¬ fails_with CodeInvalidRequest (create_handler Mock.client recreate).2)
  ∧ (PyInt.int (StepConcurrencyLevel (declared retarget)) = inr 1
     ∧ fails_with CodeInvalidRequest (update_handler Mock.client retarget).2).
Proof.
  vm_compute. split_and!; try reflexivity.
  - intros (e & Hraised & Hcode). injection Hraised as <-. discriminate Hcode.
  - eexists. split; reflexivity.
Qed.

(** Against C5 as first stated. On an owned cluster whose [modify_cluster]
    call raises, Delete ends with [InternalFailure] after the describe and
    the modify call: no [remove_tags] call is issued, and the tag stays. *)
Lemma delete_claim_counterexample :
  let st :=
    Mock.claimed [None; Mock.throttled] (Mock.model (VInt 50) Mock.owned)
                 (Mock.model VNone None) in
  observed_tag Mock.client st = inr (UID (declared st))
  ∧ call <$> issued_by (delete_handler Mock.client) st
    = [DescribeCluster "j-1"; ModifyCluster "j-1" 1]
  ∧ ¬ In (RemoveTags "j-1" ["StepConcurrencyUID"])
         (call <$> issued_by (delete_handler Mock.client) st)
  ∧ (delete_handler Mock.client st).2
    = inl (InternalFailure "Failed Delete: ThrottlingException")
  ∧ Cluster.Tags <$> Mock.clusters (remote (delete_handler Mock.client st).1) !! "j-1"
    = Some [Mock.owner_tag].
Proof.
  vm_compute. split_and!; try reflexivity.
  intros [Hcall|[Hcall|[]]]; discriminate Hcall.
Qed.

(** Against C7 as first stated. When the describe call that reads the
    ownership tag raises, each of the four handlers lets that exception
    through as it is: the outcome is not an [InternalFailure] and its text
    has no ["Failed ..."] in front. *)
Lemma describe_failure_counterexample :
  let st :=
    Mock.claimed [Mock.throttled] (Mock.model (VInt 5) Mock.owned)
                 (Mock.model (VInt 9) Mock.owned) in
  Forall (λ action,
            issued_by (handler Mock.client action) st
            = [mkIssued (DescribeCluster "j-1") (Some "ThrottlingException")]
            ∧ (handler Mock.client action st).2
              = inl (ClientError "ThrottlingException")
            ∧ ¬ fails_with CodeInternalFailure (handler Mock.client action st).2)
         [CREATE; UPDATE; DELETE; READ].
Proof.
  repeat constructor; vm_compute; try reflexivity;
    intros (e & Hraised & Hcode); injection Hraised as <-; discriminate Hcode.
Qed.

(** ** More properties on the scripted service *)

Lemma first_uid_tag_app (l1 l2 : list Tag) :
  first_uid_tag (l1 ++ l2)
  = match first_uid_tag l1 with
    | Some v => Some v
    | None => first_uid_tag l2
    end.
Proof.
  induction l1 as [|t l1 IH]; simpl; [done|].
  by destruct (String.eqb (Key t) "StepConcurrencyUID").
Qed.

Lemma first_uid_tag_without_key (l : list Tag) :
  first_uid_tag (Mock.without_keys ["StepConcurrencyUID"] l) = None.
Proof.
  induction l as [|t l IH]; simpl; [done|].
  unfold Mock.has_key. simpl. rewrite orb_false_r.
  destruct (String.eqb (Key t) "StepConcurrencyUID") eqn:Hk; simpl; [done|].
  by rewrite Hk.
Qed.

Lemma mock_scripted_returns {A}
    (run : gmap string Cluster.t → gmap string Cluster.t * (string + A))
    (w w' : Mock.World) (x : A) :
  Mock.scripted run w = (w', inr x) →
  run (Mock.clusters w) = (Mock.clusters w', inr x).
Proof.
  unfold Mock.scripted.
  destruct (Mock.script w) as [|[text|] rest]; try done;
    destruct (run (Mock.clusters w)) as [cs res]; by intros [= <- <-].
Qed.

Lemma mock_describe_returns (cid : string) (w w' : Mock.World)
    (r : Cluster.t) :
  describe_cluster Mock.client cid w = (w', inr r) →
  Mock.clusters w !! cid = Some r.
Proof.
  intros Hd%mock_scripted_returns.
  destruct (Mock.clusters w !! cid); by simplify_eq.
Qed.

Lemma mock_on_cluster_returns (cid : string) (f : Cluster.t → Cluster.t)
    (cs cs' : gmap string Cluster.t) :
  Mock.on_cluster cid f cs = (cs', inr ()) →
  ∃ c, cs !! cid = Some c ∧ cs' !! cid = Some (f c).
Proof.
  unfold Mock.on_cluster. destruct (cs !! cid) as [c|]; [|done].
  intros [= <-]. exists c. by rewrite lookup_insert_eq.
Qed.

(** The scripted service shows a written ownership tag to the next describe
    call, and no longer shows a removed one. *)
Lemma mock_tag_write_visible : tag_write_visible Mock.client.
Proof.
  intros cid v w w1 w2 r Hadd%mock_scripted_returns Hd%mock_describe_returns.
  apply mock_on_cluster_returns in Hadd as (c & _ & Hc).
  rewrite Hc in Hd. injection Hd as <-. simpl.
  by rewrite first_uid_tag_app, first_uid_tag_without_key.
Qed.

Lemma mock_tag_removal_visible : tag_removal_visible Mock.client.
Proof.
  intros cid w w1 w2 r Hrm%mock_scripted_returns Hd%mock_describe_returns.
  apply mock_on_cluster_returns in Hrm as (c & _ & Hc).
  rewrite Hc in Hd. injection Hd as <-. simpl.
  apply first_uid_tag_without_key.
Qed.

(** X1 at work: two tags carry the key, and the first one counts. *)
Lemma get_uid_first_match_witness :
  (get_uid Mock.client "j-1"
     (Mock.start [mkTag "Name" "etl"; mkTag "StepConcurrencyUID" "first";
                  mkTag "StepConcurrencyUID" "second"]
                 9 [] (Mock.model VNone None) (Mock.model VNone None))).2
  = inr (Some "first").
Proof.
  destruct (get_uid_first_match Mock.client "j-1"
              (Mock.start [mkTag "Name" "etl";
                           mkTag "StepConcurrencyUID" "first";
                           mkTag "StepConcurrencyUID" "second"]
                          9 [] (Mock.model VNone None) (Mock.model VNone None))
              (Mock.mkWorld
                 {[ "j-1" := Cluster.mk [mkTag "Name" "etl";
                                         mkTag "StepConcurrencyUID" "first";
                                         mkTag "StepConcurrencyUID" "second"]
                                        9 ]} [])
              (Cluster.mk [mkTag "Name" "etl";
                           mkTag "StepConcurrencyUID" "first";
                           mkTag "StepConcurrencyUID" "second"] 9))
    as [_ Hsome]; [vm_compute; reflexivity|].
  apply Hsome.
  exists [mkTag "Name" "etl"], (mkTag "StepConcurrencyUID" "first"),
         [mkTag "StepConcurrencyUID" "second"].
  split_and!; try reflexivity.
  intros t Hin. apply elem_of_cons in Hin as [->|Hin]; [discriminate|]. by apply elem_of_nil in Hin.
Defined.

(** X2 at work: the calls of a Create that succeeds. *)
Lemma handlers_issue_allowed_calls_witness :
  Forall (λ i, allowed CREATE "j-1" (call i))
    (issued_by (handler Mock.client CREATE)
       (Mock.unclaimed [] (Mock.model (VInt 50) None) (Mock.model VNone None))).
Proof.
  exact (proj1 (handlers_issue_allowed_calls Mock.client CREATE
                  (Mock.unclaimed [] (Mock.model (VInt 50) None)
                                  (Mock.model VNone None)))).
Defined.

(** X3 at work: the Delete that succeeds. *)
Lemma returned_event_is_success_witness :
  Forall (λ i, raised i = None)
    (issued_by (handler Mock.client DELETE)
       (Mock.claimed [] (Mock.model (VInt 50) Mock.owned)
                     (Mock.model VNone None))).
Proof.
  refine (proj2 (proj2 (returned_event_is_success Mock.client DELETE _
                          (mkEvent SUCCESS None) _))).
  vm_compute; reflexivity.
Defined.

(** X4 at work: the [NotFound] of a Read on an unclaimed cluster. *)
Lemma raised_exceptions_witness :
  may_raise READ (NotFound TYPE_NAME "j-1") = true.
Proof.
  refine (proj1 (raised_exceptions Mock.client READ
                   (Mock.unclaimed [] (Mock.model (VInt 50) Mock.owned)
                                   (Mock.model VNone None))
                   (NotFound TYPE_NAME "j-1") _)).
  vm_compute; reflexivity.
Defined.

(** X5 at work: a Create refused for its level has still converted it. *)
Lemma request_after_handler_witness :
  StepConcurrencyLevel
    (declared (handler Mock.client CREATE
                 (Mock.unclaimed [] (Mock.model (VStr "300") None)
                                 (Mock.model VNone None))).1)
  = VInt 300.
Proof.
  destruct (request_after_handler Mock.client CREATE
              (Mock.unclaimed [] (Mock.model (VStr "300") None)
                              (Mock.model VNone None)))
    as (_ & _ & _ & _ & _ & Hlevel).
  apply Hlevel; [by left | reflexivity].
Defined.


(** X7 at work: [add_tags] is throttled after the level was set. *)
Lemma create_does_not_roll_back_witness :
  (create_handler Mock.client
     (Mock.unclaimed [None; None; Mock.throttled] (Mock.model (VInt 50) None)
                     (Mock.model VNone None))).2
  = inl (InternalFailure "Failed Create: ThrottlingException")
  ∧ Cluster.StepConcurrencyLevel
      <$> Mock.clusters
            (remote (create_handler Mock.client
                       (Mock.unclaimed [None; None; Mock.throttled]
                          (Mock.model (VInt 50) None)
                          (Mock.model VNone None))).1) !! "j-1"
    = Some 50.
Proof.
  rewrite (create_does_not_roll_back Mock.client
             (Mock.unclaimed [None; None; Mock.throttled]
                (Mock.model (VInt 50) None) (Mock.model VNone None))
             50 None
             (Mock.mkWorld {[ "j-1" := Cluster.mk [] 50 ]} [Mock.throttled])
             (Mock.mkWorld {[ "j-1" := Cluster.mk [] 50 ]} [])
             "ThrottlingException");
    try (vm_compute; reflexivity); [done | lia | discriminate].
Defined.


(** X9 at work: Read changes no cluster of the scripted service, here when
    its second describe call is throttled. *)
Lemma read_reports_second_describe_witness :
  Mock.clusters
    (remote (read_handler Mock.client
               (Mock.claimed [None; Mock.throttled]
                  (Mock.model (VInt 50) Mock.owned) (Mock.model VNone None))).1)
  = Mock.clusters
      (remote (Mock.claimed [None; Mock.throttled]
                 (Mock.model (VInt 50) Mock.owned) (Mock.model VNone None))).
Proof.
  apply (read_reports_second_describe Mock.client
           (Mock.claimed [None; Mock.throttled]
              (Mock.model (VInt 50) Mock.owned) (Mock.model VNone None))
           (mkEvent SUCCESS (Some desired_ref))).
  apply mock_describe_preserves_clusters.
Defined.

(** X10 at work: Delete with a level that [int] refuses. *)
Lemma delete_and_read_ignore_level_witness :
  (delete_handler Mock.client
     (with_level (VStr "fifty")
        (Mock.claimed [] (Mock.model (VInt 50) Mock.owned)
                      (Mock.model VNone None)))).2
  = (delete_handler Mock.client
       (Mock.claimed [] (Mock.model (VInt 50) Mock.owned)
                     (Mock.model VNone None))).2.
Proof.
  exact (proj1 (proj1 (delete_and_read_ignore_level Mock.client (VStr "fifty")
                         (Mock.claimed [] (Mock.model (VInt 50) Mock.owned)
                                       (Mock.model VNone None))))).
Defined.

(** X11 at work: Update with level 0 issues no call. *)
Lemma invalid_request_and_describe_witness :
  issued_by (update_handler Mock.client)
    (Mock.claimed [] (Mock.model (VInt 0) Mock.owned)
                  (Mock.model (VInt 9) Mock.owned))
  = [].
Proof.
  apply invalid_request_and_describe.
  exists (InvalidRequest (range_message 0)).
  split; vm_compute; reflexivity.
Defined.

(** X12 at work: Create with level 50, then Create with level 60. *)
Lemma create_claims_cluster_witness :
  (create_handler Mock.client
     (next_request
        (create_handler Mock.client
           (Mock.unclaimed [] (Mock.model (VInt 50) None)
                           (Mock.model VNone None))).1
        (mkRequest (Mock.model (VInt 60) None) (Mock.model VNone None)))).2
  = inl (AlreadyExists TYPE_NAME "j-1").
Proof.
  destruct (create_claims_cluster Mock.client
              (Mock.unclaimed [] (Mock.model (VInt 50) None)
                              (Mock.model VNone None))
              (mkEvent SUCCESS (Some desired_ref))
              (mkRequest (Mock.model (VInt 60) None) (Mock.model VNone None)))
    as [Hcreate _];
    [apply mock_tag_write_visible | vm_compute; reflexivity | reflexivity |].
  destruct (Hcreate 60) as [_ Hexists]; [reflexivity|].
  apply (Hexists (Mock.mkWorld {[ "j-1" := Cluster.mk [Mock.owner_tag] 50 ]} [])
                 (Cluster.mk [Mock.owner_tag] 50)).
  vm_compute; reflexivity.
Defined.

(** X13 at work: Delete, then Read with the same model. *)
Lemma delete_releases_cluster_witness :
  (read_handler Mock.client
     (next_request
        (delete_handler Mock.client
           (Mock.claimed [] (Mock.model (VInt 50) Mock.owned)
                         (Mock.model VNone None))).1
        (mkRequest (Mock.model (VInt 50) Mock.owned) (Mock.model VNone None)))).2
  = inl (NotFound TYPE_NAME "j-1").
Proof.
  destruct (delete_releases_cluster Mock.client
              (Mock.claimed [] (Mock.model (VInt 50) Mock.owned)
                            (Mock.model VNone None))
              (mkEvent SUCCESS None)
              (mkRequest (Mock.model (VInt 50) Mock.owned)
                         (Mock.model VNone None)))
    as [Hgone _];
    [apply mock_tag_removal_visible | vm_compute; reflexivity | reflexivity |].
  destruct (Hgone ltac:(discriminate) READ) as [_ Hread]; [by left|].
  apply (Hread (Mock.mkWorld {[ "j-1" := Cluster.mk [] 1 ]} [])
               (Cluster.mk [] 1)).
  vm_compute; reflexivity.
Defined.

(** X14 at work: [remove_tags] is throttled after the level was reset; the
    cluster is at level 1 and still tagged. *)
Lemma delete_does_not_roll_back_witness :
  (delete_handler Mock.client
     (Mock.claimed [None; None; Mock.throttled]
        (Mock.model (VInt 50) Mock.owned) (Mock.model VNone None))).2
  = inl (InternalFailure "Failed Delete: ThrottlingException")
  ∧ Mock.clusters
      (remote (delete_handler Mock.client
                 (Mock.claimed [None; None; Mock.throttled]
                    (Mock.model (VInt 50) Mock.owned)
                    (Mock.model VNone None))).1) !! "j-1"
    = Some (Cluster.mk [Mock.owner_tag] 1).
Proof.
  rewrite (delete_does_not_roll_back Mock.client
             (Mock.claimed [None; None; Mock.throttled]
                (Mock.model (VInt 50) Mock.owned) (Mock.model VNone None))
             (Mock.mkWorld {[ "j-1" := Cluster.mk [Mock.owner_tag] 1 ]}
                           [Mock.throttled])
             (Mock.mkWorld {[ "j-1" := Cluster.mk [Mock.owner_tag] 1 ]} [])
             "ThrottlingException");
    try (vm_compute; reflexivity); done.
Defined.

(** X15 at work: an Update whose previous model names another cluster is
    run like the one whose previous model names the same. *)
Lemma handlers_ignore_witness :
  (update_handler Mock.client
     (with_previous (mkModel "j-0" (VInt 9) Mock.owned)
        (Mock.claimed [] (Mock.model (VInt 5) Mock.owned)
                      (Mock.model (VInt 9) Mock.owned)))).2
  = (update_handler Mock.client
       (Mock.claimed [] (Mock.model (VInt 5) Mock.owned)
                     (Mock.model (VInt 9) Mock.owned))).2.
Proof.
  destruct (handlers_ignore Mock.client
              (Mock.claimed [] (Mock.model (VInt 5) Mock.owned)
                            (Mock.model (VInt 9) Mock.owned))
              (mkModel "j-0" (VInt 9) Mock.owned) None)
    as (_ & _ & _ & Hupdate).
  apply Hupdate. reflexivity.
Defined.
